(** * Network interfaces by security-group name: a model of [main.go]

    The program collects the values of the repeated flag
    [--security-group-names], asks EC2 for the network interfaces of each
    name in turn and prints them.  The model below follows [main.go]
    function by function.  The AWS SDK is an interface the program calls
    into; it is kept abstract in the class [SDK].  Go statements that can
    panic or write to standard output live in the monad [Go], whose state
    keeps the remote side, the bytes written so far and the log of SDK
    calls. *)

From Stdlib Require Import String Ascii List ZArith Lia Bool.
Import ListNotations.
Local Open Scope list_scope.
Local Open Scope string_scope.

Set Implicit Arguments.

(** ** Go values used by the program *)

(** The line feed written by the [\n] escapes and by [fmt.Println]. *)
Definition nl : string := String (ascii_of_nat 10) EmptyString.

(** A Go call returning [(value, error)]: either the error is non-nil or
    the value is meaningful. *)
Inductive result (E A : Type) : Type :=
| Ok (a : A)
| Err (e : E).
Arguments Ok {E A} a.
Arguments Err {E A} e.

(** [types.Filter]; [Name] is a [*string]. *)
Record Filter : Type := mkFilter {
  Name : option string;
  Values : list string
}.

(** [ec2.DescribeNetworkInterfacesInput], with the one field the program
    sets. *)
Record DescribeNetworkInterfacesInput : Type := mkDNIInput {
  Filters : list Filter
}.

(** [types.NetworkInterfaceAttachment]; [InstanceId] is a [*string]. *)
Record NetworkInterfaceAttachment : Type := mkAttachment {
  InstanceId : option string
}.

(** [types.NetworkInterface]: [NetworkInterfaceId] is a [*string],
    [Attachment] a pointer to the attachment, [Status] a value of the
    string type [types.NetworkInterfaceStatus]. *)
Record NetworkInterface : Type := mkNetworkInterface {
  NetworkInterfaceId : option string;
  Attachment : option NetworkInterfaceAttachment;
  Status : string
}.

Record DescribeNetworkInterfacesOutput : Type := mkDNIOutput {
  NetworkInterfaces : list NetworkInterface
}.

(** [types.SecurityGroup]; [GroupName] is a [*string]. *)
Record SecurityGroup : Type := mkSecurityGroup {
  GroupName : option string
}.

(** [ec2.DescribeSecurityGroupsInput]: the program sends it empty. *)
Record DescribeSecurityGroupsInput : Type := mkDSGInput { }.

Record DescribeSecurityGroupsOutput : Type := mkDSGOutput {
  SecurityGroups : list SecurityGroup
}.

(** [aws.String]: a pointer to a copy of the string. *)
Definition aws_String (s : string) : option string := Some s.

(** ** The SDK as an interface

    [Remote] is whatever the calls depend on and change (environment,
    credentials, the state of the cloud account); each call may answer
    with an error. *)
Class SDK : Type := {
  Config : Type;
  error : Type;
  Remote : Type;
  LoadDefaultConfig : Remote -> result error Config * Remote;
  DescribeNetworkInterfaces :
    Config -> DescribeNetworkInterfacesInput -> Remote ->
    result error DescribeNetworkInterfacesOutput * Remote;
  DescribeSecurityGroups :
    Config -> DescribeSecurityGroupsInput -> Remote ->
    result error DescribeSecurityGroupsOutput * Remote
}.

(** One entry of the log of SDK calls. *)
Inductive call : Type :=
| CallLoadDefaultConfig
| CallDescribeNetworkInterfaces (input : DescribeNetworkInterfacesInput)
| CallDescribeSecurityGroups (input : DescribeSecurityGroupsInput).

(** ** The monad of Go statements *)

(** What a panic carries: the error handed to [panic(err)], or the
    runtime error of dereferencing a nil pointer. *)
Inductive panic_value (E : Type) : Type :=
| PanicError (e : E)
| PanicNilDereference.
Arguments PanicError {E} e.
Arguments PanicNilDereference {E}.

(** How a computation stops early: a panic that nobody recovers, or
    [os.Exit]. *)
Inductive abort (E : Type) : Type :=
| Panic (v : panic_value E)
| Exit (code : Z).
Arguments Panic {E} v.
Arguments Exit {E} code.

Inductive outcome (E A : Type) : Type :=
| Returned (a : A)
| Aborted (c : abort E).
Arguments Returned {E A} a.
Arguments Aborted {E A} c.

Section Program.
Context {sdk : SDK}.

(** The state threaded through the program. *)
Record World : Type := mkWorld {
  remote : Remote;
  stdout : string;
  calls : list call
}.

Definition Go (A : Type) : Type := World -> outcome error A * World.

Definition ret {A : Type} (a : A) : Go A := fun w => (Returned a, w).

Definition bind {A B : Type} (m : Go A) (k : A -> Go B) : Go B :=
  fun w =>
    match m w with
    | (Returned a, w') => k a w'
    | (Aborted c, w') => (Aborted c, w')
    end.

Definition panic {A : Type} (v : panic_value error) : Go A :=
  fun w => (Aborted (Panic v), w).

Definition os_Exit {A : Type} (code : Z) : Go A :=
  fun w => (Aborted (Exit code), w).

End Program.

Declare Scope go_scope.
Delimit Scope go_scope with go.
Notation "x <- m ;; k" := (bind m (fun x => k))
  (at level 61, m at next level, right associativity) : go_scope.
Notation "m ;; k" := (bind m (fun _ => k))
  (at level 61, right associativity) : go_scope.
Local Open Scope go_scope.

(** ** Library functions the program calls *)

(** The builtin [append] with one element. *)
Definition append {A : Type} (s : list A) (x : A) : list A := (s ++ [x])%list.

(** [strings.Join]: nothing for no element, otherwise the first element
    followed by each further one behind a separator. *)
Definition strings_Join (elems : list string) (sep : string) : string :=
  match elems with
  | [] => EmptyString
  | e :: rest => fold_left (fun b s => b ++ sep ++ s) rest e
  end.

(** [fmt.Sprintf] for string operands and the verb [%s], the only verb
    the program uses: each [%s] is replaced by the next operand, a [%s]
    without operand by [%!s(MISSING)], operands left over are reported
    at the end, and every other byte of the format is copied. *)
Fixpoint fmt_Sprintf (format : string) (a : list string) : string :=
  match format with
  | EmptyString =>
      match a with
      | [] => EmptyString
      | _ :: _ =>
          "%!(EXTRA " ++
          strings_Join (map (fun s => "string=" ++ s) a) ", " ++ ")"
      end
  | String c rest =>
      match rest with
      | String d rest' =>
          if (Ascii.eqb c "%" && Ascii.eqb d "s")%bool then
            match a with
            | x :: a' => x ++ fmt_Sprintf rest' a'
            | [] => "%!s(MISSING)" ++ fmt_Sprintf rest' []
            end
          else String c (fmt_Sprintf rest a)
      | EmptyString => String c (fmt_Sprintf rest a)
      end
  end.

Section Statements.
Context {sdk : SDK}.

(** Writing to standard output is unbuffered: the bytes are out when the
    call returns, and a later panic does not take them back.  The
    program ignores what [fmt.Printf] and [fmt.Println] return. *)
Definition write (s : string) : Go unit :=
  fun w => (Returned tt, mkWorld (remote w) (stdout w ++ s) (calls w)).

Definition fmt_Printf (format : string) (a : list string) : Go unit :=
  write (fmt_Sprintf format a).

Definition fmt_Println : Go unit := write nl.

(** [*p]: the value behind the pointer, or the runtime panic. *)
Definition deref {A : Type} (p : option A) : Go A :=
  match p with
  | Some a => ret a
  | None => panic PanicNilDereference
  end.

(** [for _, x := range xs { body x }]. *)
Fixpoint forRange {A : Type} (xs : list A) (body : A -> Go unit) : Go unit :=
  match xs with
  | [] => ret tt
  | x :: rest => body x ;; forRange rest body
  end.

(** [config.LoadDefaultConfig(context.TODO())]. *)
Definition config_LoadDefaultConfig : Go (result error Config) :=
  fun w =>
    let (r, rem) := LoadDefaultConfig (remote w) in
    (Returned r, mkWorld rem (stdout w) (calls w ++ [CallLoadDefaultConfig])%list).

(** [*ec2.Client], made by [ec2.NewFromConfig]. *)
Record Client : Type := mkClient { clientConfig : Config }.

Definition ec2_NewFromConfig (cfg : Config) : Client := mkClient cfg.

Definition Client_DescribeNetworkInterfaces (c : Client)
    (params : DescribeNetworkInterfacesInput)
  : Go (result error DescribeNetworkInterfacesOutput) :=
  fun w =>
    let (r, rem) := DescribeNetworkInterfaces (clientConfig c) params (remote w) in
    (Returned r,
     mkWorld rem (stdout w) (calls w ++ [CallDescribeNetworkInterfaces params])%list).

Definition Client_DescribeSecurityGroups (c : Client)
    (params : DescribeSecurityGroupsInput)
  : Go (result error DescribeSecurityGroupsOutput) :=
  fun w =>
    let (r, rem) := DescribeSecurityGroups (clientConfig c) params (remote w) in
    (Returned r,
     mkWorld rem (stdout w) (calls w ++ [CallDescribeSecurityGroups params])%list).

(** ** main.go *)

Record SecurityGroupNames : Type := mkSecurityGroupNames {
  Names : list string
}.

(** [func (s *SecurityGroupNames) Set(value string) error]: the receiver
    after the call, and the returned error ([None] is [nil]). *)
Definition SecurityGroupNames_Set (s : SecurityGroupNames) (value : string)
  : SecurityGroupNames * option error :=
  (mkSecurityGroupNames (append (Names s) value), None).

(** [func (s *SecurityGroupNames) String() string]. *)
Definition SecurityGroupNames_String (s : SecurityGroupNames) : string :=
  strings_Join (Names s) ",".

(** [flag.Var] followed by [flag.Parse], seen from the flag value: [Set]
    is called once per occurrence of the flag, in command-line order,
    and an error from [Set] ends the process with status 2. *)
Fixpoint flag_Parse (occurrences : list string) (v : SecurityGroupNames)
  : Go SecurityGroupNames :=
  match occurrences with
  | [] => ret v
  | value :: rest =>
      match SecurityGroupNames_Set v value with
      | (v', None) => flag_Parse rest v'
      | (_, Some _) => os_Exit 2
      end
  end.

Definition getNetworkInterfacesForSecurityGroup (securityGroupName : string)
  : Go (list NetworkInterface) :=
  r <- config_LoadDefaultConfig ;;
  match r with
  | Err err => panic (PanicError err)
  | Ok cfg =>
      let ec2Client := ec2_NewFromConfig cfg in
      r' <- Client_DescribeNetworkInterfaces ec2Client
              (mkDNIInput
                 [mkFilter (aws_String "group-name") [securityGroupName]]) ;;
      match r' with
      | Err err => panic (PanicError err)
      | Ok describeNetworkInterfacesOutput =>
          ret (fold_left append
                 (NetworkInterfaces describeNetworkInterfacesOutput) [])
      end
  end.

(** The loop of [getSecurityGroupNames] (lines 111 to 113), from the
    groups still to visit and the names collected so far. *)
Fixpoint getSecurityGroupNames_loop (groups : list SecurityGroup)
    (securityGroupNames : list string) : Go (list string) :=
  match groups with
  | [] => ret securityGroupNames
  | securityGroup :: rest =>
      name <- deref (GroupName securityGroup) ;;
      getSecurityGroupNames_loop rest (append securityGroupNames name)
  end.

Definition getSecurityGroupNames : Go (list string) :=
  r <- config_LoadDefaultConfig ;;
  match r with
  | Err err => panic (PanicError err)
  | Ok cfg =>
      let ec2Client := ec2_NewFromConfig cfg in
      r' <- Client_DescribeSecurityGroups ec2Client mkDSGInput ;;
      match r' with
      | Err err => panic (PanicError err)
      | Ok describeSecurityGroupsOutput =>
          getSecurityGroupNames_loop
            (SecurityGroups describeSecurityGroupsOutput) []
      end
  end.

(** The body of the inner loop of [main] (lines 61 to 67). *)
Definition main_interface (networkInterface : NetworkInterface) : Go unit :=
  fmt_Printf ("Network interfaces:" ++ nl) [] ;;
  id <- deref (NetworkInterfaceId networkInterface) ;;
  fmt_Printf ("  NetworkInterface ID: %s" ++ nl) [id] ;;
  (if match Attachment networkInterface with
      | Some attachment =>
          match InstanceId attachment with Some _ => true | None => false end
      | None => false
      end
   then
     attachment <- deref (Attachment networkInterface) ;;
     instanceId <- deref (InstanceId attachment) ;;
     fmt_Printf ("  InstanceId: %s" ++ nl) [instanceId]
   else ret tt) ;;
  fmt_Printf ("  Status: %s" ++ nl) [Status networkInterface] ;;
  fmt_Println.

(** The body of the outer loop of [main] (lines 57 to 68). *)
Definition main_group (securityGroupName : string) : Go unit :=
  networkInterfaces <- getNetworkInterfacesForSecurityGroup securityGroupName ;;
  fmt_Printf ("Security group name: %s" ++ nl) [securityGroupName] ;;
  forRange networkInterfaces main_interface.

(** [func main()], given the values of the occurrences of
    [--security-group-names] on the command line. *)
Definition main (flags : list string) : Go unit :=
  securityGroupNames <- flag_Parse flags (mkSecurityGroupNames []) ;;
  forRange (Names securityGroupNames) main_group.

(** The exit status of the process: 0 when [main] returns, 2 after a
    panic, the given code after [os.Exit]. *)
Definition exitStatus (o : outcome error unit) : Z :=
  match o with
  | Returned _ => 0
  | Aborted (Panic _) => 2
  | Aborted (Exit code) => code
  end.

End Statements.

(** ** What the program writes, as functions of the data *)

(** The [InstanceId] line of a record: present when the record has an
    attachment that has an instance identifier. *)
Definition instanceLine (ni : NetworkInterface) : string :=
  match Attachment ni with
  | Some a =>
      match InstanceId a with
      | Some i => "  InstanceId: " ++ i ++ nl
      | None => EmptyString
      end
  | None => EmptyString
  end.

(** The bytes one pass of the inner loop writes for a record: the whole
    block when the record has an identifier, only the first line when it
    has none. *)
Definition interfaceBlock (ni : NetworkInterface) : string :=
  match NetworkInterfaceId ni with
  | Some id =>
      "Network interfaces:" ++ nl ++
      "  NetworkInterface ID: " ++ id ++ nl ++
      instanceLine ni ++
      "  Status: " ++ Status ni ++ nl ++
      nl
  | None => "Network interfaces:" ++ nl
  end.

Definition headerLine (name : string) : string :=
  "Security group name: " ++ name ++ nl.

(** Texts written one after the other. *)
Definition concatAll (l : list string) : string :=
  fold_right String.append EmptyString l.

Definition groupBlock (g : string * list NetworkInterface) : string :=
  headerLine (fst g) ++ concatAll (map interfaceBlock (snd g)).

(** The output format of section 6 of the specification, read as the
    claims read it: the header line, one [Network interfaces:] line, then
    for each record its identifier line, its optional instance line, its
    status line and a blank line. *)
Definition specInterfaceBlock (ni : NetworkInterface) : string :=
  match NetworkInterfaceId ni with
  | Some id =>
      "  NetworkInterface ID: " ++ id ++ nl ++
      instanceLine ni ++
      "  Status: " ++ Status ni ++ nl ++
      nl
  | None => EmptyString
  end.

Definition specGroupBlock (g : string * list NetworkInterface) : string :=
  headerLine (fst g) ++ "Network interfaces:" ++ nl ++
  concatAll (map specInterfaceBlock (snd g)).

(** The lines of a text: the pieces between line feeds. *)
Fixpoint splitLines (s : string) (cur : string) : list string :=
  match s with
  | EmptyString => [cur]
  | String c rest =>
      if Ascii.eqb c (ascii_of_nat 10)
      then cur :: splitLines rest EmptyString
      else splitLines rest (cur ++ String c EmptyString)
  end.

Definition countLine (line : string) (text : string) : nat :=
  count_occ string_dec (splitLines text EmptyString) line.

(** The precondition of the unguarded dereferences: the pointer is not
    nil. *)
Definition carriesId (ni : NetworkInterface) : bool :=
  match NetworkInterfaceId ni with Some _ => true | None => false end.

Definition carriesName (g : SecurityGroup) : bool :=
  match GroupName g with Some _ => true | None => false end.

(** The names present in a list of groups, in order. *)
Definition groupNames (groups : list SecurityGroup) : list string :=
  flat_map (fun g => match GroupName g with Some n => [n] | None => [] end)
    groups.

(** The request [getNetworkInterfacesForSecurityGroup] sends for a name,
    as the claims describe it. *)
Definition groupNameRequest (name : string) : DescribeNetworkInterfacesInput :=
  mkDNIInput [mkFilter (Some "group-name") [name]].

Section Lookups.
Context {sdk : SDK}.

(** The lookups of a list of names one after the other, with nothing in
    between: what the remote side answers to the program's requests. *)
Fixpoint lookupAll (names : list string) : Go (list (list NetworkInterface)) :=
  match names with
  | [] => ret []
  | name :: rest =>
      r <- getNetworkInterfacesForSecurityGroup name ;;
      rs <- lookupAll rest ;;
      ret (r :: rs)
  end.

(** A world with other bytes on standard output. *)
Definition withStdout (s : string) (w : World) : World :=
  mkWorld (remote w) s (calls w).

(** The SDK calls of one successful lookup. *)
Definition lookupCalls (name : string) : list call :=
  [CallLoadDefaultConfig; CallDescribeNetworkInterfaces (groupNameRequest name)].

End Lookups.

(** ** A remote side given by tables, for concrete runs *)

Definition tableSDK
    (cfg : result string unit)
    (interfaces : string -> result string (list NetworkInterface))
    (groups : result string (list SecurityGroup)) : SDK :=
  {| Config := unit;
     error := string;
     Remote := nat;
     LoadDefaultConfig := fun n => (cfg, S n);
     DescribeNetworkInterfaces := fun _ input n =>
       (match Filters input with
        | [f] =>
            match Name f, Values f with
            | Some key, [v] =>
                if String.eqb key "group-name" then
                  match interfaces v with
                  | Ok l => Ok (mkDNIOutput l)
                  | Err e => Err e
                  end
                else Err "InvalidParameterValue"
            | _, _ => Err "InvalidParameterValue"
            end
        | _ => Ok (mkDNIOutput [])
        end, S n);
     DescribeSecurityGroups := fun _ _ n =>
       (match groups with
        | Ok l => Ok (mkDSGOutput l)
        | Err e => Err e
        end, S n) |}.

Definition eniA : NetworkInterface :=
  mkNetworkInterface (Some "eni-0a") (Some (mkAttachment (Some "i-123"))) "in-use".
Definition eniB : NetworkInterface :=
  mkNetworkInterface (Some "eni-0b") None "available".
Definition eniC : NetworkInterface :=
  mkNetworkInterface (Some "eni-0c") (Some (mkAttachment None)) "attaching".
Definition eniNoId : NetworkInterface :=
  mkNetworkInterface None None "available".

(** An account with the groups [web] (two interfaces), [db] (one),
    [idle] (none) and [odd] (a record without identifier); every other
    name is refused. *)
Definition demoInterfaces (name : string) : result string (list NetworkInterface) :=
  if String.eqb name "web" then Ok [eniA; eniB]
  else if String.eqb name "db" then Ok [eniC]
  else if String.eqb name "idle" then Ok []
  else if String.eqb name "odd" then Ok [eniNoId; eniA]
  else Err "InvalidGroup.NotFound".

Definition demoGroups : list SecurityGroup :=
  [mkSecurityGroup (Some "web"); mkSecurityGroup (Some "db")].

Definition demoSDK : SDK := tableSDK (Ok tt) demoInterfaces (Ok demoGroups).

(** The same account without usable credentials. *)
Definition noCredentialsSDK : SDK :=
  tableSDK (Err "no credentials") demoInterfaces (Ok demoGroups).

(** An account whose group listing has an entry without name. *)
Definition namelessGroupSDK : SDK :=
  tableSDK (Ok tt) demoInterfaces
    (Ok [mkSecurityGroup (Some "web"); mkSecurityGroup None]).

Definition world0 (sdk : SDK) (r : @Remote sdk) : @World sdk :=
  mkWorld r EmptyString [].

(** The start of a run against the demo account: nothing written, no
    call made. *)
Definition demoWorld : @World demoSDK := world0 demoSDK 0.

(** ** Notions for the runs that do not complete *)

(** The bytes the inner loop of [main] writes for any list of records:
    block after block, stopping behind the first line of the first record
    that has no identifier. *)
Fixpoint printedInterfaces (nis : list NetworkInterface) : string :=
  match nis with
  | [] => EmptyString
  | ni :: rest =>
      interfaceBlock ni ++
      (if carriesId ni then printedInterfaces rest else EmptyString)
  end.

(** The SDK calls the lookups of the given names may make. *)
Definition lookupCallOf (names : list string) (c : call) : Prop :=
  c = CallLoadDefaultConfig \/
  exists name, In name names /\
    c = CallDescribeNetworkInterfaces (groupNameRequest name).

Section Frames.
Context {sdk : SDK}.

(** A computation that only appends: from a given remote side it has one
    outcome, one final remote side, one text [delta] and one list [cs] of
    calls, whatever standard output and the log held before, and it
    leaves standard output and the log extended by [delta] and [cs]; [P]
    holds of the calls. *)
Definition appendsOnly {A : Type} (P : list call -> Prop) (m : Go A) : Prop :=
  forall r0 : Remote,
  exists (o : outcome error A) (r : Remote) (delta : string) (cs : list call),
    P cs /\
    forall (s : string) (c0 : list call),
      m (mkWorld r0 s c0) = (o, mkWorld r (s ++ delta) (c0 ++ cs)%list).

End Frames.

(** ** Slices and their backing arrays

    Lines 149 to 154 of [getNetworkInterfacesForSecurityGroup] once more,
    this time with the memory the slices live in: a heap of arrays, a
    slice being a window on one of them.  This is what it takes to say
    that the returned slice is a copy. *)

Module Slices.

(** The arrays allocated so far, by address; an array is its cells. *)
Definition heap : Type := list (list NetworkInterface).

(** A slice header: the array it points into, the offset of its first
    element there, its length and its capacity. *)
Record slice : Type := mkSlice {
  arr : nat;
  off : nat;
  len : nat;
  cap : nat
}.

(** The zero value of [types.NetworkInterface], which fills the cells of
    a new array beyond the length. *)
Definition zeroValue : NetworkInterface :=
  mkNetworkInterface None None EmptyString.


(** The elements of a slice, in order. *)
Definition elements (h : heap) (s : slice) : list NetworkInterface :=
  firstn (len s) (skipn (off s) (nth (arr s) h [])).


Fixpoint setNth {A : Type} (l : list A) (i : nat) (x : A) : list A :=
  match l, i with
  | [], _ => []
  | _ :: t, 0 => x :: t
  | y :: t, S i' => y :: setNth t i' x
  end.

(** Writing one cell of one array. *)
Definition storeCell (h : heap) (a i : nat) (x : NetworkInterface) : heap :=
  setNth h a (setNth (nth a h []) i x).



(** The builtin [append] with one element.  With room left in the array
    the element is written behind the last one, in place.  Otherwise a
    new array is allocated, the elements are copied to it and the new
    element is written behind them; [growcap] stands for the capacity the
    runtime chooses from the old capacity and the length needed. *)
Definition append (growcap : nat -> nat -> nat) (h : heap) (s : slice)
    (x : NetworkInterface) : heap * slice :=
  if Nat.ltb (len s) (cap s)
  then (storeCell h (arr s) (off s + len s) x,
        mkSlice (arr s) (off s) (S (len s)) (cap s))
  else
    let newcap := growcap (cap s) (S (len s)) in
    ((h ++ [elements h s ++ x :: repeat zeroValue (newcap - S (len s))])%list,
     mkSlice (length h) 0 (S (len s)) newcap).




End Slices.


(** The lookups that [main] gets answered in a run, in order: those of
    the names up to the first one whose lookup does not return, or whose
    records are not all printed. *)
Fixpoint answered {sdk : SDK} (names : list string) (w : World)
  : list (list NetworkInterface) :=
  match names with
  | [] => []
  | name :: rest =>
      match getNetworkInterfacesForSecurityGroup name w with
      | (Returned nis, w1) =>
          nis :: (if forallb carriesId nis then answered rest w1 else [])
      | (Aborted _, _) => []
      end
  end.

(** * Properties *)

(** ** Strings and lists *)

Lemma string_app_assoc (a b c : string) : (a ++ b) ++ c = a ++ (b ++ c).
Proof.
  induction a as [|ch a IH]; simpl.
  - reflexivity.
  - now rewrite IH.
Qed.

Lemma string_app_nil_r (a : string) : a ++ EmptyString = a.
Proof.
  induction a as [|ch a IH]; simpl; [reflexivity | now rewrite IH].
Qed.

Lemma fold_left_append_acc {A : Type} (xs acc : list A) :
  fold_left append xs acc = (acc ++ xs)%list.
Proof.
  revert acc; induction xs as [|x xs IH]; intros acc; simpl.
  - now rewrite app_nil_r.
  - rewrite IH. unfold append. now rewrite <- app_assoc.
Qed.

Lemma fold_left_join_acc (sep : string) (rest : list string) (b : string) :
  fold_left (fun b s => b ++ sep ++ s) rest b =
  b ++ concatAll (map (fun s => sep ++ s) rest).
Proof.
  revert b; induction rest as [|x rest IH]; intros b; simpl.
  - now rewrite string_app_nil_r.
  - rewrite IH. now rewrite !string_app_assoc.
Qed.

Lemma strings_Join_concat (elems : list string) (sep : string) :
  strings_Join elems sep = String.concat sep elems.
Proof.
  destruct elems as [|e rest]; [reflexivity|].
  unfold strings_Join. rewrite fold_left_join_acc.
  revert e; induction rest as [|x rest IH]; intros e.
  - simpl. apply string_app_nil_r.
  - change (String.concat sep (e :: x :: rest))
      with (e ++ sep ++ String.concat sep (x :: rest)).
    rewrite <- IH. simpl. now rewrite string_app_assoc.
Qed.

Lemma Sprintf_network_interfaces :
  fmt_Sprintf ("Network interfaces:" ++ nl) [] = "Network interfaces:" ++ nl.
Proof. reflexivity. Qed.

Lemma Sprintf_id (id : string) :
  fmt_Sprintf ("  NetworkInterface ID: %s" ++ nl) [id] =
  "  NetworkInterface ID: " ++ id ++ nl.
Proof. reflexivity. Qed.

Lemma Sprintf_instance (i : string) :
  fmt_Sprintf ("  InstanceId: %s" ++ nl) [i] = "  InstanceId: " ++ i ++ nl.
Proof. reflexivity. Qed.

Lemma Sprintf_status (st : string) :
  fmt_Sprintf ("  Status: %s" ++ nl) [st] = "  Status: " ++ st ++ nl.
Proof. reflexivity. Qed.

Lemma Sprintf_header (name : string) :
  fmt_Sprintf ("Security group name: %s" ++ nl) [name] = headerLine name.
Proof. reflexivity. Qed.

(** ** The monad *)

Section MonadFacts.
Context {sdk : SDK}.

Lemma bind_returned {A B : Type} (m : Go A) (k : A -> Go B) w a w' :
  m w = (Returned a, w') -> bind m k w = k a w'.
Proof. intros H. unfold bind. now rewrite H. Qed.

Lemma bind_aborted {A B : Type} (m : Go A) (k : A -> Go B) w c w' :
  m w = (Aborted c, w') -> bind m k w = (Aborted c, w').
Proof. intros H. unfold bind. now rewrite H. Qed.

Lemma withStdout_same (w : World) : withStdout (stdout w) w = w.
Proof. now destruct w. Qed.

Lemma write_run (s : string) (w : World) :
  write s w = (Returned tt, withStdout (stdout w ++ s) w).
Proof. reflexivity. Qed.

Lemma forRange_app {A : Type} (xs ys : list A) (body : A -> Go unit) w :
  forRange (xs ++ ys) body w = (forRange xs body ;; forRange ys body) w.
Proof.
  revert w; induction xs as [|x xs IH]; intros w.
  - reflexivity.
  - simpl. unfold bind in *. destruct (body x w) as [[[]|c] w1].
    + apply IH.
    + reflexivity.
Qed.

End MonadFacts.

(** ** The print loop *)

Section PrintFacts.
Context {sdk : SDK}.

(** One pass of the inner loop: what it writes, and whether it returns. *)
Lemma main_interface_run (ni : NetworkInterface) (w : World) :
  main_interface ni w =
  (if carriesId ni then Returned tt else Aborted (Panic PanicNilDereference),
   withStdout (stdout w ++ interfaceBlock ni) w).
Proof.
  destruct w as [r out cs], ni as [[id|] [[[i|]]|] st];
    cbv [main_interface bind fmt_Printf fmt_Println deref ret write withStdout
         panic carriesId interfaceBlock instanceLine NetworkInterfaceId
         Attachment Status InstanceId remote stdout calls];
    rewrite ?Sprintf_network_interfaces, ?Sprintf_id, ?Sprintf_instance,
      ?Sprintf_status, ?string_app_assoc;
    reflexivity.
Qed.

(** The block of a record with an identifier is the line
    [Network interfaces:] followed by the record's lines. *)
Lemma interfaceBlocks_line_first (nis : list NetworkInterface) :
  forallb carriesId nis = true ->
  concatAll (map interfaceBlock nis) =
  concatAll
    (map (fun ni => "Network interfaces:" ++ nl ++ specInterfaceBlock ni) nis).
Proof.
  induction nis as [|ni nis IH]; [reflexivity|].
  simpl forallb. intros Hall. apply andb_true_iff in Hall as [Hni Hrest].
  simpl map. unfold concatAll in *. simpl fold_right. rewrite (IH Hrest).
  f_equal. unfold interfaceBlock, specInterfaceBlock, carriesId in *.
  destruct (NetworkInterfaceId ni); [|discriminate].
  rewrite !string_app_assoc. reflexivity.
Qed.

(** The inner loop over records that all have their identifier returns,
    having written their blocks one after the other. *)
Lemma forRange_interfaces_run (nis : list NetworkInterface) (w : World) :
  forallb carriesId nis = true ->
  forRange nis main_interface w =
  (Returned tt, withStdout (stdout w ++ concatAll (map interfaceBlock nis)) w).
Proof.
  revert w; induction nis as [|ni nis IH]; intros w Hall.
  - simpl. rewrite string_app_nil_r, withStdout_same. reflexivity.
  - simpl in Hall. apply andb_true_iff in Hall as [Hni Hrest].
    simpl forRange. erewrite bind_returned
      by (rewrite main_interface_run, Hni; reflexivity).
    rewrite (IH _ Hrest). unfold withStdout; simpl.
    now rewrite string_app_assoc.
Qed.

Lemma forRange_interfaces_outcome (nis : list NetworkInterface) (w : World) :
  fst (forRange nis main_interface w) =
  if forallb carriesId nis then Returned tt
  else Aborted (Panic PanicNilDereference).
Proof.
  revert w; induction nis as [|ni nis IH]; intros w.
  - reflexivity.
  - simpl. unfold bind. rewrite main_interface_run.
    destruct (carriesId ni); simpl.
    + apply IH.
    + reflexivity.
Qed.

End PrintFacts.

(** ** The lookup *)

Section LookupFacts.
Context {sdk : SDK}.

(** The lookup in terms of the two SDK calls it makes. *)
Lemma lookup_run (name : string) (w : World) :
  getNetworkInterfacesForSecurityGroup name w =
  match LoadDefaultConfig (remote w) with
  | (Err e, r1) =>
      (Aborted (Panic (PanicError e)),
       mkWorld r1 (stdout w) (calls w ++ [CallLoadDefaultConfig]))
  | (Ok cfg, r1) =>
      match DescribeNetworkInterfaces cfg (groupNameRequest name) r1 with
      | (Err e, r2) =>
          (Aborted (Panic (PanicError e)),
           mkWorld r2 (stdout w) (calls w ++ lookupCalls name))
      | (Ok out, r2) =>
          (Returned (NetworkInterfaces out),
           mkWorld r2 (stdout w) (calls w ++ lookupCalls name))
      end
  end.
Proof.
  unfold getNetworkInterfacesForSecurityGroup, bind, config_LoadDefaultConfig,
    Client_DescribeNetworkInterfaces, ec2_NewFromConfig, aws_String,
    groupNameRequest, lookupCalls, panic, ret.
  destruct (LoadDefaultConfig (remote w)) as [[cfg|e] r1]; simpl.
  - destruct (DescribeNetworkInterfaces cfg _ r1) as [[out|e] r2]; simpl;
      rewrite <- app_assoc; simpl; try reflexivity.
    now rewrite fold_left_append_acc.
  - reflexivity.
Qed.

(** A lookup neither reads nor writes standard output. *)
Lemma lookup_frame (name : string) (s : string) (w : World) :
  getNetworkInterfacesForSecurityGroup name (withStdout s w) =
  (fst (getNetworkInterfacesForSecurityGroup name w),
   withStdout s (snd (getNetworkInterfacesForSecurityGroup name w))).
Proof.
  rewrite !lookup_run. unfold withStdout; simpl.
  destruct (LoadDefaultConfig (remote w)) as [[cfg|e] r1]; [|reflexivity].
  destruct (DescribeNetworkInterfaces cfg _ r1) as [[out|e] r2]; reflexivity.
Qed.

Lemma lookup_stdout (name : string) (w : World) :
  stdout (snd (getNetworkInterfacesForSecurityGroup name w)) = stdout w.
Proof.
  rewrite lookup_run.
  destruct (LoadDefaultConfig (remote w)) as [[cfg|e] r1]; [|reflexivity].
  destruct (DescribeNetworkInterfaces cfg _ r1) as [[out|e] r2]; reflexivity.
Qed.

Lemma lookup_returned_calls (name : string) (w w1 : World) nis :
  getNetworkInterfacesForSecurityGroup name w = (Returned nis, w1) ->
  calls w1 = (calls w ++ lookupCalls name)%list.
Proof.
  rewrite lookup_run.
  destruct (LoadDefaultConfig (remote w)) as [[cfg|e] r1]; [|discriminate].
  destruct (DescribeNetworkInterfaces cfg _ r1) as [[out|e] r2];
    [|discriminate].
  intros H; injection H as _ <-. reflexivity.
Qed.

(** A lookup that does not return has panicked with the error of one of
    its two calls, after one attempt. *)
Lemma lookup_aborted (name : string) (w w1 : World) c :
  getNetworkInterfacesForSecurityGroup name w = (Aborted c, w1) ->
  exists e, c = Panic (PanicError e) /\
    ((fst (LoadDefaultConfig (remote w)) = Err e /\
      calls w1 = (calls w ++ [CallLoadDefaultConfig])%list) \/
     (exists cfg r1,
        LoadDefaultConfig (remote w) = (Ok cfg, r1) /\
        fst (DescribeNetworkInterfaces cfg (groupNameRequest name) r1) = Err e /\
        calls w1 = (calls w ++ lookupCalls name)%list)).
Proof.
  rewrite lookup_run.
  destruct (LoadDefaultConfig (remote w)) as [[cfg|e] r1] eqn:Hload.
  - destruct (DescribeNetworkInterfaces cfg _ r1) as [[out|e] r2] eqn:Hdesc;
      [discriminate|].
    intros H; injection H as <- <-. exists e. split; [reflexivity|].
    right. exists cfg, r1. rewrite Hdesc. auto.
  - intros H; injection H as <- <-. exists e. split; [reflexivity|].
    left. auto.
Qed.

Lemma lookupAll_frame (names : list string) (s : string) (w : World) :
  lookupAll names (withStdout s w) =
  (fst (lookupAll names w), withStdout s (snd (lookupAll names w))).
Proof.
  revert w; induction names as [|name rest IH]; intros w.
  - reflexivity.
  - simpl. unfold bind. rewrite lookup_frame.
    destruct (getNetworkInterfacesForSecurityGroup name w) as [[nis|c] w1];
      simpl; [|reflexivity].
    rewrite IH. destruct (lookupAll rest w1) as [[rs|c] w2]; reflexivity.
Qed.

Lemma lookupAll_returned (names : list string) (w w1 : World) results :
  lookupAll names w = (Returned results, w1) ->
  length results = length names /\
  stdout w1 = stdout w /\
  calls w1 = (calls w ++ flat_map lookupCalls names)%list.
Proof.
  revert w results; induction names as [|name rest IH]; intros w results.
  - simpl. unfold ret. intros H; injection H as <- <-.
    now rewrite app_nil_r.
  - simpl lookupAll. unfold bind.
    destruct (getNetworkInterfacesForSecurityGroup name w) as [[nis|c] wa] eqn:Hl;
      [|discriminate].
    destruct (lookupAll rest wa) as [[rs|c] wb] eqn:Hr; [|discriminate].
    unfold ret. intros H; injection H as <- <-.
    destruct (IH _ _ Hr) as (Hlen & Hout & Hcalls).
    split; [simpl; now rewrite Hlen|]. split.
    + rewrite Hout. rewrite <- (lookup_stdout name w), Hl. reflexivity.
    + rewrite Hcalls, (lookup_returned_calls _ _ Hl).
      simpl flat_map. now rewrite <- app_assoc.
Qed.

Lemma groupNames_present (groups : list SecurityGroup) :
  forallb carriesName groups = true ->
  map Some (groupNames groups) = map GroupName groups.
Proof.
  induction groups as [|g groups IH]; [reflexivity|].
  simpl. unfold carriesName at 1. intros H.
  destruct (GroupName g) as [n|]; [|discriminate].
  simpl in *. now rewrite IH.
Qed.

Lemma getSecurityGroupNames_loop_run (groups : list SecurityGroup)
    (acc : list string) (w : World) :
  getSecurityGroupNames_loop groups acc w =
  (if forallb carriesName groups then Returned (acc ++ groupNames groups)%list
   else Aborted (Panic PanicNilDereference), w).
Proof.
  revert acc; induction groups as [|g groups IH]; intros acc.
  - simpl. now rewrite app_nil_r.
  - simpl. unfold bind, deref, carriesName at 1.
    destruct (GroupName g) as [n|]; simpl.
    + rewrite IH. unfold append. now rewrite <- app_assoc.
    + reflexivity.
Qed.

Lemma getSecurityGroupNames_run (w : World) cfg r1 out r2 :
  LoadDefaultConfig (remote w) = (Ok cfg, r1) ->
  DescribeSecurityGroups cfg mkDSGInput r1 = (Ok out, r2) ->
  if forallb carriesName (SecurityGroups out)
  then exists names,
         fst (getSecurityGroupNames w) = Returned names /\
         map Some names = map GroupName (SecurityGroups out)
  else fst (getSecurityGroupNames w) = Aborted (Panic PanicNilDereference).
Proof.
  intros Hload Hdesc.
  assert (Hrun : fst (getSecurityGroupNames w) =
    if forallb carriesName (SecurityGroups out)
    then Returned (groupNames (SecurityGroups out))
    else Aborted (Panic PanicNilDereference)).
  { unfold getSecurityGroupNames, bind, config_LoadDefaultConfig,
      Client_DescribeSecurityGroups, ec2_NewFromConfig.
    rewrite Hload. simpl. rewrite Hdesc.
    rewrite getSecurityGroupNames_loop_run. reflexivity. }
  destruct (forallb carriesName (SecurityGroups out)) eqn:Hall.
  - exists (groupNames (SecurityGroups out)). split; [exact Hrun|].
    now apply groupNames_present.
  - exact Hrun.
Qed.

End LookupFacts.

(** ** The program *)

Section MainFacts.
Context {sdk : SDK}.

Lemma flag_Parse_run (flags : list string) (v : SecurityGroupNames) (w : World) :
  flag_Parse flags v w =
  (Returned (mkSecurityGroupNames (Names v ++ flags)), w).
Proof.
  revert v; induction flags as [|value rest IH]; intros v.
  - simpl. rewrite app_nil_r. now destruct v.
  - simpl. rewrite IH. simpl. unfold append. now rewrite <- app_assoc.
Qed.

Lemma main_run (flags : list string) (w : World) :
  main flags w = forRange flags main_group w.
Proof.
  unfold main. erewrite bind_returned by apply flag_Parse_run. reflexivity.
Qed.

Lemma main_group_run (name : string) (w w1 : World) nis :
  getNetworkInterfacesForSecurityGroup name w = (Returned nis, w1) ->
  forallb carriesId nis = true ->
  main_group name w =
  (Returned tt, withStdout (stdout w ++ groupBlock (name, nis)) w1).
Proof.
  intros Hl Hall. unfold main_group.
  erewrite bind_returned by exact Hl.
  erewrite bind_returned by (unfold fmt_Printf; apply write_run).
  rewrite (forRange_interfaces_run _ _ Hall), Sprintf_header.
  unfold withStdout, groupBlock; simpl.
  rewrite string_app_assoc.
  rewrite <- (lookup_stdout name w), Hl. reflexivity.
Qed.

Lemma groups_loop_run (names : list string) (w w1 : World) results :
  lookupAll names w = (Returned results, w1) ->
  forallb (forallb carriesId) results = true ->
  forRange names main_group w =
  (Returned tt,
   withStdout (stdout w ++ concatAll (map groupBlock (combine names results))) w1).
Proof.
  revert w w1 results; induction names as [|name rest IH]; intros w w1 results.
  - simpl. unfold ret. intros H _; injection H as <- <-. simpl.
    now rewrite string_app_nil_r, withStdout_same.
  - simpl lookupAll. unfold bind at 1.
    destruct (getNetworkInterfacesForSecurityGroup name w) as [[nis|c] wa] eqn:Hl;
      [|discriminate].
    unfold bind at 1.
    destruct (lookupAll rest wa) as [[rs|c] wb] eqn:Hr; [|discriminate].
    unfold ret. intros H; injection H as <- <-.
    simpl forallb. intros Hall. apply andb_true_iff in Hall as [Hnis Hrs].
    simpl forRange.
    erewrite bind_returned by (apply (main_group_run _ _ Hl Hnis)).
    assert (Hr' := lookupAll_frame rest (stdout w ++ groupBlock (name, nis)) wa).
    rewrite Hr in Hr'; simpl in Hr'.
    rewrite (IH _ _ _ Hr' Hrs). unfold withStdout; simpl.
    now rewrite string_app_assoc.
Qed.

End MainFacts.

(** ** Slices *)

Module SliceFacts.
Import Slices.

















End SliceFacts.

(** ** The claims *)

Section Claims.
Context {sdk : SDK}.

(** C1.  When the lookups of the flag values, taken in command-line
    order, all return, and every returned record has its identifier (the
    data model of the specification calls it required), [main] returns
    and has written one block per flag occurrence, each starting with the
    header line of its name, in the order of the flags; the blocks are
    paired with the flags one to one, and the SDK log shows one
    configuration load and one describe request per occurrence, repeated
    names included. *)
Theorem main_one_block_per_flag_in_order
    (flags : list string) (w w1 : World) (results : list (list NetworkInterface)) :
  lookupAll flags w = (Returned results, w1) ->
  forallb (forallb carriesId) results = true ->
  main flags w =
    (Returned tt,
     withStdout
       (stdout w ++ concatAll (map groupBlock (combine flags results))) w1) /\
  length (map groupBlock (combine flags results)) = length flags /\
  map fst (combine flags results) = flags /\
  calls w1 = (calls w ++ flat_map lookupCalls flags)%list.
Proof.
  intros Hl Hall.
  destruct (lookupAll_returned _ _ Hl) as (Hlen & _ & Hcalls).
  split; [rewrite main_run; now apply groups_loop_run|].
  split; [rewrite length_map, length_combine, Hlen; apply Nat.min_id|].
  split.
  - clear Hl Hall Hcalls. revert results Hlen.
    induction flags as [|f flags IH]; intros [|r rs] Hlen; try discriminate.
    + reflexivity.
    + simpl. f_equal. apply IH. now injection Hlen.
  - exact Hcalls.
Qed.

(** C2.  When the lookups of the names before some name return (with
    identifiers on all records) and, for that name, the configuration
    load answers with an error, or it succeeds and the describe request
    answers with an error, [main] stops there: the outcome is the panic
    carrying that error, the exit status is 2, standard output holds the
    blocks of the earlier names and nothing of the failing or any later
    name, the remote side is as the failed call left it, and the SDK log
    ends with the one attempt of the failing lookup ([cs]: the load
    alone, or the load and the one request). *)
Theorem main_stops_at_first_failed_lookup
    (before : list string) (failing : string) (after : list string)
    (w w1 : World) (results : list (list NetworkInterface))
    (e : error) (rf : Remote) (cs : list call) :
  lookupAll before w = (Returned results, w1) ->
  forallb (forallb carriesId) results = true ->
  (LoadDefaultConfig (remote w1) = (Err e, rf) /\
   cs = [CallLoadDefaultConfig]) \/
  (exists cfg r1,
     LoadDefaultConfig (remote w1) = (Ok cfg, r1) /\
     DescribeNetworkInterfaces cfg
       (mkDNIInput [mkFilter (Some "group-name") [failing]]) r1 = (Err e, rf) /\
     cs = [CallLoadDefaultConfig;
           CallDescribeNetworkInterfaces
             (mkDNIInput [mkFilter (Some "group-name") [failing]])]) ->
  main (before ++ failing :: after) w =
    (Aborted (Panic (PanicError e)),
     mkWorld rf
       (stdout w ++ concatAll (map groupBlock (combine before results)))
       (calls w ++ flat_map lookupCalls before ++ cs)) /\
  exitStatus (fst (main (before ++ failing :: after) w)) = 2%Z.
Proof.
  intros Hl Hall Hfail.
  destruct (lookupAll_returned _ _ Hl) as (_ & Hout & Hcalls).
  assert (Hlookup : getNetworkInterfacesForSecurityGroup failing w1 =
    (Aborted (Panic (PanicError e)),
     mkWorld rf (stdout w) (calls w ++ flat_map lookupCalls before ++ cs))).
  { rewrite lookup_run.
    destruct Hfail as [[Hload ->]|(cfg & r1 & Hload & Hdesc & ->)];
      rewrite Hload.
    - now rewrite Hout, Hcalls, <- app_assoc.
    - unfold groupNameRequest. rewrite Hdesc.
      now rewrite Hout, Hcalls, <- app_assoc. }
  assert (Hmain : main (before ++ failing :: after) w =
    (Aborted (Panic (PanicError e)),
     mkWorld rf
       (stdout w ++ concatAll (map groupBlock (combine before results)))
       (calls w ++ flat_map lookupCalls before ++ cs))).
  { rewrite main_run, forRange_app.
    erewrite bind_returned by (apply (groups_loop_run _ _ Hl Hall)).
    simpl forRange. apply bind_aborted.
    unfold main_group. apply bind_aborted.
    rewrite lookup_frame, Hlookup. reflexivity. }
  split; [exact Hmain | now rewrite Hmain].
Qed.

(** C3, as the code has it.  For a group whose lookup returns records
    that all have their identifier, the loop body writes the header line
    and then, for each record, a block that itself starts with the line
    [Network interfaces:] and goes on with the identifier line, the
    optional instance line, the status line and a blank line: the line
    [Network interfaces:] is written once per record. *)
Theorem group_output_line_per_interface
    (name : string) (w w1 : World) (nis : list NetworkInterface) :
  getNetworkInterfacesForSecurityGroup name w = (Returned nis, w1) ->
  forallb carriesId nis = true ->
  main_group name w =
    (Returned tt,
     withStdout
       (stdout w ++ headerLine name ++
        concatAll
          (map (fun ni => "Network interfaces:" ++ nl ++ specInterfaceBlock ni)
             nis))
       w1).
Proof.
  intros Hl Hall. rewrite (main_group_run _ _ Hl Hall).
  unfold groupBlock; simpl fst; simpl snd.
  now rewrite (interfaceBlocks_line_first _ Hall).
Qed.

(** C4.  One pass of the inner loop over a record with an identifier
    writes the line [Network interfaces:], the identifier line, a piece
    [line], the status line and a blank line, where [line] is the
    [InstanceId] line showing the instance identifier when the record has
    an attachment with an instance identifier, and is empty when the
    attachment or its instance identifier is missing. *)
Theorem instance_line_iff_attached_instance
    (ni : NetworkInterface) (id : string) (w : World) :
  NetworkInterfaceId ni = Some id ->
  exists line,
    main_interface ni w =
      (Returned tt,
       withStdout
         (stdout w ++ "Network interfaces:" ++ nl ++
          "  NetworkInterface ID: " ++ id ++ nl ++
          line ++
          "  Status: " ++ Status ni ++ nl ++ nl) w) /\
    ((exists a i, Attachment ni = Some a /\ InstanceId a = Some i /\
                  line = "  InstanceId: " ++ i ++ nl) \/
     ((Attachment ni = None \/
       exists a, Attachment ni = Some a /\ InstanceId a = None) /\
      line = EmptyString)).
Proof.
  intros Hid. exists (instanceLine ni). split.
  - rewrite main_interface_run. unfold carriesId, interfaceBlock.
    rewrite Hid. reflexivity.
  - unfold instanceLine. destruct (Attachment ni) as [a|].
    + destruct (InstanceId a) as [i|] eqn:Hi.
      * left. exists a, i. auto.
      * right. split; [right; exists a; auto | reflexivity].
    + right. auto.
Qed.

(** C5.  The SDK calls a lookup adds to the log are the configuration
    load and, when that succeeds, one describe request; every describe
    request among them has as its filters the single filter named
    [group-name] whose values are the name alone, as given. *)
Theorem lookup_request_single_group_name_filter (name : string) (w : World) :
  exists cs,
    calls (snd (getNetworkInterfacesForSecurityGroup name w)) =
      (calls w ++ cs)%list /\
    (forall input, In (CallDescribeNetworkInterfaces input) cs ->
       Filters input = [mkFilter (Some "group-name") [name]]) /\
    (forall cfg r1, LoadDefaultConfig (remote w) = (Ok cfg, r1) ->
       cs = [CallLoadDefaultConfig;
             CallDescribeNetworkInterfaces
               (mkDNIInput [mkFilter (Some "group-name") [name]])]) /\
    (forall e r1, LoadDefaultConfig (remote w) = (Err e, r1) ->
       cs = [CallLoadDefaultConfig]).
Proof.
  rewrite lookup_run.
  destruct (LoadDefaultConfig (remote w)) as [[cfg|e] r1].
  - exists (lookupCalls name). split.
    + destruct (DescribeNetworkInterfaces cfg _ r1) as [[out|e] r2]; reflexivity.
    + split; [|split; [reflexivity | discriminate]].
      intros input [H|[H|[]]]; [discriminate|]. now injection H as <-.
  - exists [CallLoadDefaultConfig]. split; [reflexivity|].
    split; [|split; [discriminate | reflexivity]].
    intros input [H|[]]. discriminate.
Qed.


(** C7, as the code has it.  For a name whose lookup returns no record,
    the loop body writes the header line of the name and nothing else. *)
Theorem group_without_interfaces_prints_header_only
    (name : string) (w w1 : World) :
  getNetworkInterfacesForSecurityGroup name w = (Returned [], w1) ->
  main_group name w =
    (Returned tt,
     withStdout (stdout w ++ "Security group name: " ++ name ++ nl) w1).
Proof.
  intros Hl. rewrite (main_group_run _ _ Hl eq_refl).
  unfold groupBlock, headerLine; simpl fst; simpl snd; simpl map.
  unfold concatAll; simpl fold_right.
  rewrite !string_app_assoc, string_app_nil_r. reflexivity.
Qed.

(** C8.  Without any occurrence of the flag, [main] returns with the
    world as it found it (no SDK call logged, the remote side untouched,
    nothing written), and the exit status is 0. *)
Theorem main_without_flags (w : World) :
  main [] w = (Returned tt, w) /\
  exitStatus (fst (main [] w)) = 0%Z.
Proof. split; reflexivity. Qed.

(** C9.  [Set] returns the nil error and leaves the names followed by the
    new value, whatever the value and the names before; [String] is the
    names joined by commas in their order; and a run of [Set] calls, as
    made by flag parsing, leaves the earlier names followed by the values
    in call order. *)
Theorem collector_set_appends_and_string_joins
    (s : SecurityGroupNames) (value : string) :
  SecurityGroupNames_Set s value =
    (mkSecurityGroupNames (Names s ++ [value]), None) /\
  SecurityGroupNames_String s = String.concat "," (Names s) /\
  (forall values w,
     flag_Parse values s w =
       (Returned (mkSecurityGroupNames (Names s ++ values)), w)).
Proof.
  split; [reflexivity|]. split.
  - apply strings_Join_concat.
  - intros values w. apply flag_Parse_run.
Qed.

(** C10.  The print loop returns exactly when every record has its
    identifier and panics on the nil dereference otherwise, so that a
    group with such a record makes the loop body panic; and when the
    configuration loads and the group listing is answered,
    [getSecurityGroupNames] returns the names exactly when every group
    has its name and panics on the nil dereference otherwise. *)
Theorem dereferences_total_iff_identifiers_present :
  (forall nis w,
     fst (forRange nis main_interface w) =
     if forallb carriesId nis then Returned tt
     else Aborted (Panic PanicNilDereference)) /\
  (forall name w w1 nis,
     getNetworkInterfacesForSecurityGroup name w = (Returned nis, w1) ->
     forallb carriesId nis = false ->
     fst (main_group name w) = Aborted (Panic PanicNilDereference)) /\
  (forall w cfg r1 out r2,
     LoadDefaultConfig (remote w) = (Ok cfg, r1) ->
     DescribeSecurityGroups cfg mkDSGInput r1 = (Ok out, r2) ->
     if forallb carriesName (SecurityGroups out)
     then exists names,
            fst (getSecurityGroupNames w) = Returned names /\
            map Some names = map GroupName (SecurityGroups out)
     else fst (getSecurityGroupNames w) = Aborted (Panic PanicNilDereference)).
Proof.
  split; [exact forRange_interfaces_outcome|]. split.
  - intros name w w1 nis Hl Hbad. unfold main_group, bind. rewrite Hl.
    unfold fmt_Printf. rewrite write_run.
    rewrite forRange_interfaces_outcome, Hbad. reflexivity.
  - intros w cfg r1 out r2 Hload Hdesc.
    apply (getSecurityGroupNames_run w Hload Hdesc).
Qed.

End Claims.

(** ** Concrete runs against the demo account *)

(** C1 at the flags [web], [idle], [web]. *)
Lemma main_one_block_per_flag_in_order_witness :
  lookupAll (sdk := demoSDK) ["web"; "idle"; "web"] demoWorld =
    (Returned [[eniA; eniB]; []; [eniA; eniB]],
     snd (lookupAll (sdk := demoSDK) ["web"; "idle"; "web"] demoWorld)) /\
  forallb (forallb carriesId) [[eniA; eniB]; []; [eniA; eniB]] = true /\
  (main (sdk := demoSDK) ["web"; "idle"; "web"] demoWorld =
     (Returned tt,
      withStdout
        (stdout demoWorld ++
         concatAll
           (map groupBlock
              (combine ["web"; "idle"; "web"] [[eniA; eniB]; []; [eniA; eniB]])))
        (snd (lookupAll (sdk := demoSDK) ["web"; "idle"; "web"] demoWorld))) /\
   length
     (map groupBlock
        (combine ["web"; "idle"; "web"] [[eniA; eniB]; []; [eniA; eniB]])) = 3 /\
   map fst (combine ["web"; "idle"; "web"] [[eniA; eniB]; []; [eniA; eniB]]) =
     ["web"; "idle"; "web"] /\
   calls (snd (lookupAll (sdk := demoSDK) ["web"; "idle"; "web"] demoWorld)) =
     (calls demoWorld ++ flat_map lookupCalls ["web"; "idle"; "web"])%list).
Proof.
  refine (conj eq_refl (conj eq_refl _)).
  exact (main_one_block_per_flag_in_order (sdk := demoSDK)
           ["web"; "idle"; "web"] demoWorld eq_refl eq_refl).
Defined.

(** C2 at the names [web], [nope], [db]: the account has no group
    [nope], and the describe request for it is refused. *)
Lemma main_stops_at_first_failed_lookup_witness :
  lookupAll (sdk := demoSDK) ["web"] demoWorld =
    (Returned [[eniA; eniB]], snd (lookupAll (sdk := demoSDK) ["web"] demoWorld)) /\
  forallb (forallb carriesId) [[eniA; eniB]] = true /\
  LoadDefaultConfig (SDK := demoSDK) 2 = (Ok tt, 3) /\
  DescribeNetworkInterfaces (SDK := demoSDK) tt
    (mkDNIInput [mkFilter (Some "group-name") ["nope"]]) 3 =
    (Err "InvalidGroup.NotFound", 4) /\
  main (sdk := demoSDK) (["web"] ++ "nope" :: ["db"]) demoWorld =
    (Aborted (Panic (PanicError "InvalidGroup.NotFound")),
     mkWorld (sdk := demoSDK) 4
       (stdout demoWorld ++
        concatAll (map groupBlock (combine ["web"] [[eniA; eniB]])))
       (calls demoWorld ++ flat_map lookupCalls ["web"] ++
        [CallLoadDefaultConfig;
         CallDescribeNetworkInterfaces
           (mkDNIInput [mkFilter (Some "group-name") ["nope"]])])) /\
  exitStatus
    (fst (main (sdk := demoSDK) (["web"] ++ "nope" :: ["db"]) demoWorld)) = 2%Z.
Proof.
  refine (conj eq_refl (conj eq_refl (conj eq_refl (conj eq_refl _)))).
  exact (@main_stops_at_first_failed_lookup demoSDK
           ["web"] "nope" ["db"] demoWorld
           (snd (lookupAll (sdk := demoSDK) ["web"] demoWorld))
           [[eniA; eniB]] "InvalidGroup.NotFound" 4
           [CallLoadDefaultConfig;
            CallDescribeNetworkInterfaces
              (mkDNIInput [mkFilter (Some "group-name") ["nope"]])]
           eq_refl eq_refl
           (or_intror
              (ex_intro _ tt
                 (ex_intro _ 3 (conj eq_refl (conj eq_refl eq_refl)))))).
Defined.

(** C3 as stated fails on the group [web], which has two interfaces: the
    lookup returns both, and what the loop body writes is not the header,
    one [Network interfaces:] line and the two records; that line is
    written twice. *)
Lemma network_interfaces_line_not_once_per_group :
  getNetworkInterfacesForSecurityGroup (sdk := demoSDK) "web" demoWorld =
    (Returned [eniA; eniB],
     snd (getNetworkInterfacesForSecurityGroup (sdk := demoSDK) "web" demoWorld)) /\
  stdout (snd (main_group (sdk := demoSDK) "web" demoWorld)) <>
    specGroupBlock ("web", [eniA; eniB]) /\
  countLine "Network interfaces:"
    (stdout (snd (main_group (sdk := demoSDK) "web" demoWorld))) = 2 /\
  countLine "Network interfaces:" (specGroupBlock ("web", [eniA; eniB])) = 1.
Proof.
  split; [reflexivity|]. split; [|split; reflexivity].
  intros H.
  assert (Hc : countLine "Network interfaces:"
                 (stdout (snd (main_group (sdk := demoSDK) "web" demoWorld))) =
               countLine "Network interfaces:"
                 (specGroupBlock ("web", [eniA; eniB])))
    by now rewrite H.
  vm_compute in Hc. discriminate Hc.
Qed.

(** The amended C3 at the group [web]. *)
Lemma group_output_line_per_interface_witness :
  getNetworkInterfacesForSecurityGroup (sdk := demoSDK) "web" demoWorld =
    (Returned [eniA; eniB],
     snd (getNetworkInterfacesForSecurityGroup (sdk := demoSDK) "web" demoWorld)) /\
  forallb carriesId [eniA; eniB] = true /\
  main_group (sdk := demoSDK) "web" demoWorld =
    (Returned tt,
     withStdout
       (stdout demoWorld ++ headerLine "web" ++
        concatAll
          (map (fun ni => "Network interfaces:" ++ nl ++ specInterfaceBlock ni)
             [eniA; eniB]))
       (snd (getNetworkInterfacesForSecurityGroup (sdk := demoSDK) "web" demoWorld))).
Proof.
  refine (conj eq_refl (conj eq_refl _)).
  exact (group_output_line_per_interface (sdk := demoSDK)
           "web" demoWorld eq_refl eq_refl).
Defined.

(** C4 at the record [eniA], attached to the instance [i-123]. *)
Lemma instance_line_iff_attached_instance_witness :
  NetworkInterfaceId eniA = Some "eni-0a" /\
  exists line,
    main_interface (sdk := demoSDK) eniA demoWorld =
      (Returned tt,
       withStdout
         (stdout demoWorld ++ "Network interfaces:" ++ nl ++
          "  NetworkInterface ID: " ++ "eni-0a" ++ nl ++
          line ++
          "  Status: " ++ Status eniA ++ nl ++ nl) demoWorld) /\
    ((exists a i, Attachment eniA = Some a /\ InstanceId a = Some i /\
                  line = "  InstanceId: " ++ i ++ nl) \/
     ((Attachment eniA = None \/
       exists a, Attachment eniA = Some a /\ InstanceId a = None) /\
      line = EmptyString)).
Proof.
  refine (conj eq_refl _).
  exact (instance_line_iff_attached_instance (sdk := demoSDK)
           eniA demoWorld eq_refl).
Defined.


(** C7 as stated fails on the group [idle], which has no interface: the
    lookup returns no record, and the loop body writes the header line
    only, without a [Network interfaces:] line. *)
Lemma header_not_followed_by_network_interfaces_line :
  getNetworkInterfacesForSecurityGroup (sdk := demoSDK) "idle" demoWorld =
    (Returned [],
     snd (getNetworkInterfacesForSecurityGroup (sdk := demoSDK) "idle" demoWorld)) /\
  stdout (snd (main_group (sdk := demoSDK) "idle" demoWorld)) <>
    headerLine "idle" ++ "Network interfaces:" ++ nl /\
  stdout (snd (main_group (sdk := demoSDK) "idle" demoWorld)) = headerLine "idle" /\
  countLine "Network interfaces:"
    (stdout (snd (main_group (sdk := demoSDK) "idle" demoWorld))) = 0.
Proof.
  split; [reflexivity|]. split; [|split; reflexivity].
  intros H.
  assert (Hc : String.length
                 (stdout (snd (main_group (sdk := demoSDK) "idle" demoWorld))) =
               String.length (headerLine "idle" ++ "Network interfaces:" ++ nl))
    by now rewrite H.
  vm_compute in Hc. discriminate Hc.
Qed.

(** The amended C7 at the group [idle]. *)
Lemma group_without_interfaces_prints_header_only_witness :
  getNetworkInterfacesForSecurityGroup (sdk := demoSDK) "idle" demoWorld =
    (Returned [],
     snd (getNetworkInterfacesForSecurityGroup (sdk := demoSDK) "idle" demoWorld)) /\
  main_group (sdk := demoSDK) "idle" demoWorld =
    (Returned tt,
     withStdout (stdout demoWorld ++ "Security group name: " ++ "idle" ++ nl)
       (snd (getNetworkInterfacesForSecurityGroup (sdk := demoSDK) "idle" demoWorld))).
Proof.
  refine (conj eq_refl _).
  exact (group_without_interfaces_prints_header_only (sdk := demoSDK)
           "idle" demoWorld eq_refl).
Defined.

(** ** Further runs *)

(** Without credentials the first lookup panics before anything is
    written or requested. *)
Example run_without_credentials :
  main (sdk := noCredentialsSDK) ["web"; "db"] (world0 noCredentialsSDK 0) =
  (Aborted (Panic (PanicError "no credentials")),
   mkWorld (sdk := noCredentialsSDK) 1 EmptyString [CallLoadDefaultConfig]).
Proof. reflexivity. Qed.

(** A record without identifier stops the program after the header and
    the first line of the record's block; the group [db] is never looked
    up. *)
Example run_with_record_without_identifier :
  main (sdk := demoSDK) ["odd"; "db"] demoWorld =
  (Aborted (Panic PanicNilDereference),
   mkWorld (sdk := demoSDK) 2
     ("Security group name: odd" ++ nl ++ "Network interfaces:" ++ nl)
     (lookupCalls "odd")).
Proof. reflexivity. Qed.

Example list_groups_of_demo_account :
  fst (getSecurityGroupNames (sdk := demoSDK) demoWorld) = Returned ["web"; "db"].
Proof. reflexivity. Qed.

Example list_groups_with_nameless_group :
  fst (getSecurityGroupNames (sdk := namelessGroupSDK) (world0 namelessGroupSDK 0)) =
  Aborted (Panic PanicNilDereference).
Proof. reflexivity. Qed.

Example string_of_three_names :
  SecurityGroupNames_String (mkSecurityGroupNames ["web"; "db"; "web"]) =
  "web,db,web".
Proof. reflexivity. Qed.

Example run_two_groups :
  stdout (snd (main (sdk := demoSDK) ["db"; "idle"] demoWorld)) =
  "Security group name: db" ++ nl ++
  "Network interfaces:" ++ nl ++
  "  NetworkInterface ID: eni-0c" ++ nl ++
  "  Status: attaching" ++ nl ++
  nl ++
  "Security group name: idle" ++ nl.
Proof. reflexivity. Qed.

(** * Further properties of the program *)

(** ** Computations that only append *)

Section AppendsOnly.
Context {sdk : SDK}.
Variable P : list call -> Prop.
Hypothesis P_nil : P [].
Hypothesis P_app : forall a b, P a -> P b -> P (a ++ b)%list.

Lemma appendsOnly_ret {A : Type} (a : A) : appendsOnly P (ret a).
Proof.
  intros r0. exists (Returned a), r0, EmptyString, []. split; [exact P_nil|].
  intros s c0. unfold ret. now rewrite string_app_nil_r, app_nil_r.
Qed.

Lemma appendsOnly_panic {A : Type} (v : panic_value error) :
  appendsOnly P (panic (A := A) v).
Proof.
  intros r0. exists (Aborted (Panic v)), r0, EmptyString, [].
  split; [exact P_nil|].
  intros s c0. unfold panic. now rewrite string_app_nil_r, app_nil_r.
Qed.

Lemma appendsOnly_bind {A B : Type} (m : Go A) (k : A -> Go B) :
  appendsOnly P m -> (forall a, appendsOnly P (k a)) ->
  appendsOnly P (bind m k).
Proof.
  intros Hm Hk r0. destruct (Hm r0) as (o & r & delta & cs & Pcs & Hrun).
  destruct o as [a|c].
  - destruct (Hk a r) as (o' & r' & delta' & cs' & Pcs' & Hrun').
    exists o', r', (delta ++ delta'), (cs ++ cs')%list.
    split; [now apply P_app|].
    intros s c0. unfold bind. rewrite Hrun, Hrun'.
    now rewrite string_app_assoc, app_assoc.
  - exists (Aborted c), r, delta, cs. split; [exact Pcs|].
    intros s c0. unfold bind. now rewrite Hrun.
Qed.

Lemma appendsOnly_write (text : string) : appendsOnly P (write text).
Proof.
  intros r0. exists (Returned tt), r0, text, []. split; [exact P_nil|].
  intros s c0. unfold write; simpl. now rewrite app_nil_r.
Qed.

Lemma appendsOnly_deref {A : Type} (p : option A) : appendsOnly P (deref p).
Proof.
  destruct p; [apply appendsOnly_ret | apply appendsOnly_panic].
Qed.

Lemma appendsOnly_forRange {A : Type} (xs : list A) (body : A -> Go unit) :
  (forall x, In x xs -> appendsOnly P (body x)) ->
  appendsOnly P (forRange xs body).
Proof.
  induction xs as [|x xs IH]; intros Hbody.
  - apply appendsOnly_ret.
  - simpl. apply appendsOnly_bind.
    + apply Hbody. now left.
    + intros _. apply IH. intros y Hy. apply Hbody. now right.
Qed.

Lemma appendsOnly_main_interface (ni : NetworkInterface) :
  appendsOnly P (main_interface ni).
Proof.
  unfold main_interface, fmt_Printf, fmt_Println.
  repeat first
    [ apply appendsOnly_bind; [|intros ?]
    | apply appendsOnly_write
    | apply appendsOnly_deref
    | apply appendsOnly_ret
    | match goal with |- appendsOnly _ (if ?b then _ else _) => destruct b end ].
Qed.

Lemma appendsOnly_lookup (name : string) :
  P [CallLoadDefaultConfig] ->
  P [CallDescribeNetworkInterfaces (groupNameRequest name)] ->
  appendsOnly P (getNetworkInterfacesForSecurityGroup name).
Proof.
  intros Pload Pdesc r0.
  assert (Pboth : P (lookupCalls name))
    by apply (P_app Pload Pdesc).
  destruct (LoadDefaultConfig r0) as [[cfg|e] r1] eqn:Hload.
  - destruct (DescribeNetworkInterfaces cfg (groupNameRequest name) r1)
      as [[out|e] r2] eqn:Hdesc.
    + exists (Returned (NetworkInterfaces out)), r2, EmptyString, (lookupCalls name).
      split; [exact Pboth|]. intros s c0.
      rewrite lookup_run; simpl. now rewrite Hload, Hdesc, string_app_nil_r.
    + exists (Aborted (Panic (PanicError e))), r2, EmptyString, (lookupCalls name).
      split; [exact Pboth|]. intros s c0.
      rewrite lookup_run; simpl. now rewrite Hload, Hdesc, string_app_nil_r.
  - exists (Aborted (Panic (PanicError e))), r1, EmptyString, [CallLoadDefaultConfig].
    split; [exact Pload|]. intros s c0.
    rewrite lookup_run; simpl. now rewrite Hload, string_app_nil_r.
Qed.

Lemma appendsOnly_main_group (name : string) :
  P [CallLoadDefaultConfig] ->
  P [CallDescribeNetworkInterfaces (groupNameRequest name)] ->
  appendsOnly P (main_group name).
Proof.
  intros Pload Pdesc. unfold main_group, fmt_Printf.
  apply appendsOnly_bind; [now apply appendsOnly_lookup|].
  intros nis. apply appendsOnly_bind; [apply appendsOnly_write|].
  intros _. apply appendsOnly_forRange.
  intros ni _. apply appendsOnly_main_interface.
Qed.

End AppendsOnly.

(** ** Runs of every kind *)

Section TotalRuns.
Context {sdk : SDK}.

(** The inner loop on any list of records. *)
Lemma forRange_interfaces_total (nis : list NetworkInterface) (w : World) :
  forRange nis main_interface w =
  (if forallb carriesId nis then Returned tt
   else Aborted (Panic PanicNilDereference),
   withStdout (stdout w ++ printedInterfaces nis) w).
Proof.
  revert w; induction nis as [|ni nis IH]; intros w.
  - simpl. now rewrite string_app_nil_r, withStdout_same.
  - simpl. unfold bind. rewrite main_interface_run.
    destruct (carriesId ni); simpl.
    + rewrite IH. unfold withStdout; simpl. now rewrite string_app_assoc.
    + now rewrite string_app_nil_r.
Qed.

Lemma printedInterfaces_all (nis : list NetworkInterface) :
  forallb carriesId nis = true ->
  printedInterfaces nis = concatAll (map interfaceBlock nis).
Proof.
  induction nis as [|ni nis IH]; [reflexivity|].
  simpl. intros H. apply andb_true_iff in H as [Hni Hrest].
  now rewrite Hni, (IH Hrest).
Qed.

Lemma printedInterfaces_stop (good : list NetworkInterface)
    (b : NetworkInterface) (rest : list NetworkInterface) :
  forallb carriesId good = true ->
  NetworkInterfaceId b = None ->
  printedInterfaces (good ++ b :: rest) =
  concatAll (map interfaceBlock good) ++ "Network interfaces:" ++ nl.
Proof.
  intros Hgood Hb. induction good as [|g good IH].
  - simpl. unfold carriesId, interfaceBlock. rewrite Hb.
    now rewrite string_app_nil_r.
  - simpl in Hgood. apply andb_true_iff in Hgood as [Hg Hrest].
    simpl. rewrite Hg, (IH Hrest). now rewrite string_app_assoc.
Qed.

Lemma forallb_stop (good : list NetworkInterface)
    (b : NetworkInterface) (rest : list NetworkInterface) :
  NetworkInterfaceId b = None ->
  forallb carriesId (good ++ b :: rest) = false.
Proof.
  intros Hb. rewrite forallb_app. simpl. unfold carriesId at 2. rewrite Hb.
  simpl. apply andb_false_r.
Qed.

Lemma concatAll_cons (x : string) (l : list string) :
  concatAll (x :: l) = x ++ concatAll l.
Proof. reflexivity. Qed.

(** The body of the outer loop in terms of the lookup it starts with. *)
Lemma main_group_total (name : string) (w : World) :
  main_group name w =
  match getNetworkInterfacesForSecurityGroup name w with
  | (Returned nis, w1) =>
      (if forallb carriesId nis then Returned tt
       else Aborted (Panic PanicNilDereference),
       withStdout (stdout w ++ headerLine name ++ printedInterfaces nis) w1)
  | (Aborted c, w1) => (Aborted c, w1)
  end.
Proof.
  unfold main_group, bind.
  pose proof (lookup_stdout name w) as Hout.
  destruct (getNetworkInterfacesForSecurityGroup name w) as [[nis|c] w1];
    [|reflexivity].
  simpl in Hout. unfold fmt_Printf. rewrite write_run, Sprintf_header.
  rewrite forRange_interfaces_total. unfold withStdout; simpl.
  now rewrite Hout, string_app_assoc.
Qed.

(** The answered lookups do not depend on standard output. *)
Lemma answered_frame (names : list string) (s : string) (w : World) :
  answered names (withStdout s w) = answered names w.
Proof.
  revert w; induction names as [|name rest IH]; intros w; [reflexivity|].
  simpl. rewrite lookup_frame.
  destruct (getNetworkInterfacesForSecurityGroup name w) as [[nis|c] w1];
    [|reflexivity].
  cbn [fst snd]. now rewrite IH.
Qed.

Lemma answered_length (names : list string) (w : World) :
  length (answered names w) <= length names.
Proof.
  revert w; induction names as [|name rest IH]; intros w; simpl; [lia|].
  destruct (getNetworkInterfacesForSecurityGroup name w) as [[nis|c] w1];
    simpl; [|lia].
  destruct (forallb carriesId nis); simpl; [|lia].
  specialize (IH w1). lia.
Qed.

Lemma groups_loop_blocks (names : list string) (w : World) :
  stdout (snd (forRange names main_group w)) =
    stdout w ++
    concatAll
      (map (fun g => headerLine (fst g) ++ printedInterfaces (snd g))
         (combine names (answered names w))) /\
  (fst (forRange names main_group w) = Returned tt ->
   length (answered names w) = length names).
Proof.
  revert w; induction names as [|name rest IH]; intros w.
  - simpl. rewrite string_app_nil_r. auto.
  - simpl forRange. unfold bind. rewrite main_group_total.
    cbn [answered].
    pose proof (lookup_stdout name w) as Hout.
    destruct (getNetworkInterfacesForSecurityGroup name w) as [[nis|c] w1].
    + destruct (forallb carriesId nis) eqn:Hnis.
      * destruct (IH (withStdout
                        (stdout w ++ headerLine name ++ printedInterfaces nis) w1))
          as (Hs & Hret).
        rewrite answered_frame in Hs, Hret. split.
        -- rewrite Hs. cbn [withStdout stdout combine map fst snd].
           rewrite concatAll_cons. cbn [fst snd].
           rewrite !string_app_assoc. reflexivity.
        -- intros Hr. simpl. now rewrite (Hret Hr).
      * split; [|discriminate].
        assert (Hc : combine (name :: rest) [nis] = [(name, nis)])
          by (destruct rest; reflexivity).
        rewrite Hc. cbn [withStdout stdout snd map fst].
        rewrite concatAll_cons. cbn [fst snd concatAll fold_right].
        now rewrite string_app_nil_r.
    + split; [|discriminate].
      cbn [snd combine map concatAll fold_right] in *.
      now rewrite string_app_nil_r.
Qed.

(** The calls of [main] come from the lookups of its flags, and [main]
    only appends. *)
Lemma main_appendsOnly (flags : list string) :
  appendsOnly (Forall (lookupCallOf flags)) (main flags).
Proof.
  assert (Hloop : appendsOnly (Forall (lookupCallOf flags))
                    (forRange flags main_group)).
  { apply appendsOnly_forRange.
    - constructor.
    - intros a b Ha Hb. apply Forall_app. now split.
    - intros name Hin. apply appendsOnly_main_group.
      + constructor.
      + intros a b Ha Hb. apply Forall_app. now split.
      + repeat constructor.
      + constructor; [|constructor]. right. now exists name. }
  intros r0. destruct (Hloop r0) as (o & r & delta & cs & Pcs & Hrun).
  exists o, r, delta, cs. split; [exact Pcs|].
  intros s c0. rewrite main_run. apply Hrun.
Qed.

(** [getSecurityGroupNames] in terms of the two SDK calls it makes. *)
Lemma getSecurityGroupNames_total (w : World) :
  getSecurityGroupNames w =
  match LoadDefaultConfig (remote w) with
  | (Err e, r1) =>
      (Aborted (Panic (PanicError e)),
       mkWorld r1 (stdout w) (calls w ++ [CallLoadDefaultConfig]))
  | (Ok cfg, r1) =>
      match DescribeSecurityGroups cfg mkDSGInput r1 with
      | (Err e, r2) =>
          (Aborted (Panic (PanicError e)),
           mkWorld r2 (stdout w)
             (calls w ++
              [CallLoadDefaultConfig; CallDescribeSecurityGroups mkDSGInput]))
      | (Ok out, r2) =>
          (if forallb carriesName (SecurityGroups out)
           then Returned (groupNames (SecurityGroups out))
           else Aborted (Panic PanicNilDereference),
           mkWorld r2 (stdout w)
             (calls w ++
              [CallLoadDefaultConfig; CallDescribeSecurityGroups mkDSGInput]))
      end
  end.
Proof.
  unfold getSecurityGroupNames, bind, config_LoadDefaultConfig,
    Client_DescribeSecurityGroups, ec2_NewFromConfig, panic.
  destruct (LoadDefaultConfig (remote w)) as [[cfg|e] r1]; simpl.
  - destruct (DescribeSecurityGroups cfg mkDSGInput r1) as [[out|e] r2]; simpl;
      rewrite <- app_assoc; simpl; try reflexivity.
    now rewrite getSecurityGroupNames_loop_run.
  - reflexivity.
Qed.

End TotalRuns.

(** ** Properties of [getSecurityGroupNames] *)

Section GroupListing.
Context {sdk : SDK}.

(** X1.  When the configuration loads, the listing is answered and every
    group has its name, [getSecurityGroupNames] returns the names of the
    groups in the order of the response, after one configuration load and
    one listing request with no parameter set, and writes nothing. *)
Theorem getSecurityGroupNames_returns_names_in_order
    (w : World) (cfg : Config) (r1 r2 : Remote)
    (out : DescribeSecurityGroupsOutput) :
  LoadDefaultConfig (remote w) = (Ok cfg, r1) ->
  DescribeSecurityGroups cfg mkDSGInput r1 = (Ok out, r2) ->
  forallb carriesName (SecurityGroups out) = true ->
  exists names,
    getSecurityGroupNames w =
      (Returned names,
       mkWorld r2 (stdout w)
         (calls w ++
          [CallLoadDefaultConfig; CallDescribeSecurityGroups mkDSGInput])) /\
    map Some names = map GroupName (SecurityGroups out).
Proof.
  intros Hload Hdesc Hall. exists (groupNames (SecurityGroups out)).
  split; [|now apply groupNames_present].
  now rewrite getSecurityGroupNames_total, Hload, Hdesc, Hall.
Qed.

(** X2.  When [getSecurityGroupNames] does not return, it has written
    nothing and the cause is one of three: the configuration load failed,
    and then the panic carries its error and no listing request was sent;
    or the listing request failed, and the panic carries its error; or
    the listing was answered with a group without name, and the panic is
    the nil dereference.  In each case the call was attempted once. *)
Theorem getSecurityGroupNames_abort_causes
    (w w1 : World) (c : abort error) :
  getSecurityGroupNames w = (Aborted c, w1) ->
  stdout w1 = stdout w /\
  ((exists e,
      fst (LoadDefaultConfig (remote w)) = Err e /\
      c = Panic (PanicError e) /\
      calls w1 = (calls w ++ [CallLoadDefaultConfig])%list) \/
   (exists cfg r1,
      LoadDefaultConfig (remote w) = (Ok cfg, r1) /\
      calls w1 =
        (calls w ++
         [CallLoadDefaultConfig; CallDescribeSecurityGroups mkDSGInput])%list /\
      ((exists e,
          fst (DescribeSecurityGroups cfg mkDSGInput r1) = Err e /\
          c = Panic (PanicError e)) \/
       (exists out,
          fst (DescribeSecurityGroups cfg mkDSGInput r1) = Ok out /\
          forallb carriesName (SecurityGroups out) = false /\
          c = Panic PanicNilDereference)))).
Proof.
  rewrite getSecurityGroupNames_total.
  destruct (LoadDefaultConfig (remote w)) as [[cfg|e] r1] eqn:Hload.
  - destruct (DescribeSecurityGroups cfg mkDSGInput r1) as [[out|e] r2] eqn:Hdesc.
    + destruct (forallb carriesName (SecurityGroups out)) eqn:Hall;
        [discriminate|].
      intros H; injection H as <- <-. split; [reflexivity|].
      right. exists cfg, r1. split; [reflexivity|]. split; [reflexivity|].
      right. exists out. rewrite Hdesc. auto.
    + intros H; injection H as <- <-. split; [reflexivity|].
      right. exists cfg, r1. split; [reflexivity|]. split; [reflexivity|].
      left. exists e. rewrite Hdesc. auto.
  - intros H; injection H as <- <-. split; [reflexivity|].
    left. exists e. auto.
Qed.

End GroupListing.

(** ** Properties of [main] over all runs *)

Section MainRuns.
Context {sdk : SDK}.

(** X3.  In every run, whether it completes or not, the SDK calls [main]
    adds to the log are configuration loads and describe-interfaces
    requests whose single [group-name] filter holds one of the flag
    values; [main] never lists the security groups. *)
Theorem main_calls_only_lookups_of_flags (flags : list string) (w : World) :
  exists cs,
    calls (snd (main flags w)) = (calls w ++ cs)%list /\
    (forall c, In c cs ->
       c = CallLoadDefaultConfig \/
       exists name, In name flags /\
         c = CallDescribeNetworkInterfaces
               (mkDNIInput [mkFilter (Some "group-name") [name]])) /\
    (forall input, ~ In (CallDescribeSecurityGroups input) cs).
Proof.
  destruct (main_appendsOnly flags (remote w)) as (o & r & delta & cs & Pcs & Hrun).
  exists cs. specialize (Hrun (stdout w) (calls w)).
  replace (mkWorld (remote w) (stdout w) (calls w)) with w in Hrun
    by now destruct w.
  rewrite Hrun. split; [reflexivity|].
  rewrite Forall_forall in Pcs. split.
  - intros c Hc. exact (Pcs c Hc).
  - intros input Hin. destruct (Pcs _ Hin) as [H|(name & _ & H)]; discriminate.
Qed.

(** X5.  When the lookups of the earlier names return records that all
    have their identifier and the lookup of a name returns a list whose
    first record without identifier comes after the records [good],
    [main] panics on the nil dereference having written the blocks of the
    earlier names, the header of that name, the blocks of [good] and the
    line [Network interfaces:]; the records behind and the later names
    are neither printed nor looked up. *)
Theorem main_stops_at_record_without_identifier
    (before : list string) (name : string) (after : list string)
    (w w1 w2 : World) (results : list (list NetworkInterface))
    (good : list NetworkInterface) (b : NetworkInterface)
    (rest : list NetworkInterface) :
  lookupAll before w = (Returned results, w1) ->
  forallb (forallb carriesId) results = true ->
  getNetworkInterfacesForSecurityGroup name w1 =
    (Returned (good ++ b :: rest)%list, w2) ->
  forallb carriesId good = true ->
  NetworkInterfaceId b = None ->
  main (before ++ name :: after) w =
    (Aborted (Panic PanicNilDereference),
     withStdout
       (stdout w ++
        concatAll (map groupBlock (combine before results)) ++
        headerLine name ++
        concatAll (map interfaceBlock good) ++
        "Network interfaces:" ++ nl)
       w2) /\
  calls w2 = (calls w ++ flat_map lookupCalls (before ++ [name]))%list.
Proof.
  intros Hl Hall Hname Hgood Hb.
  destruct (lookupAll_returned _ _ Hl) as (_ & Hout1 & Hcalls).
  split.
  - rewrite main_run, forRange_app.
    erewrite bind_returned by (apply (groups_loop_run _ _ Hl Hall)).
    simpl forRange. apply bind_aborted.
    rewrite main_group_total, lookup_frame, Hname.
    cbn [fst snd]. rewrite (@forallb_stop good b rest Hb).
    rewrite (@printedInterfaces_stop good b rest Hgood Hb).
    unfold withStdout; cbn [stdout remote calls].
    now rewrite !string_app_assoc.
  - rewrite (lookup_returned_calls _ _ Hname), Hcalls.
    rewrite flat_map_app, app_assoc. cbn [flat_map]. now rewrite app_nil_r.
Qed.

(** X6.  Running [main] on the flags [xs] followed by the flags [ys] is
    running it on [xs] and, when that returns, running it on [ys] from
    where the first run ended; when the first run does not return, the
    whole run ends as the first one did. *)
Theorem main_app (xs ys : list string) (w : World) :
  main (xs ++ ys) w =
  match main xs w with
  | (Returned _, w') => main ys w'
  | (Aborted c, w') => (Aborted c, w')
  end.
Proof.
  rewrite !main_run, forRange_app. unfold bind.
  destruct (forRange xs main_group w) as [[[]|c] w']; [|reflexivity].
  now rewrite main_run.
Qed.

(** X8.  In every run, completed or not, standard output gains one block
    per answered lookup, in flag order: the header line of the flag's
    name followed by what the print loop writes for the records that the
    lookup of that name returned.  The answered lookups are those of a
    front part of the flags, and of all the flags when [main] returns. *)
Theorem main_output_blocks_of_flag_prefix (flags : list string) (w : World) :
  stdout (snd (main flags w)) =
    stdout w ++
    concatAll
      (map (fun g => headerLine (fst g) ++ printedInterfaces (snd g))
         (combine flags (answered flags w))) /\
  length (answered flags w) <= length flags /\
  (fst (main flags w) = Returned tt ->
   length (answered flags w) = length flags).
Proof.
  rewrite main_run. destruct (groups_loop_blocks flags w) as [Hs Hret].
  split; [exact Hs|]. split; [apply answered_length | exact Hret].
Qed.

(** X9.  Rendering after one more [Set]: the rendering of a collector
    that had no name is the new value alone; otherwise it is the earlier
    rendering, a comma and the new value. *)
Theorem string_after_set (s : SecurityGroupNames) (value : string) :
  SecurityGroupNames_String (fst (SecurityGroupNames_Set s value)) =
  match Names s with
  | [] => value
  | _ :: _ => SecurityGroupNames_String s ++ "," ++ value
  end.
Proof.
  unfold SecurityGroupNames_Set, SecurityGroupNames_String, append; simpl.
  destruct (Names s) as [|e rest]; [reflexivity|].
  simpl. now rewrite fold_left_app.
Qed.

End MainRuns.

(** X1 at the demo account. *)
Lemma getSecurityGroupNames_returns_names_in_order_witness :
  LoadDefaultConfig (SDK := demoSDK) (remote demoWorld) = (Ok tt, 1) /\
  DescribeSecurityGroups (SDK := demoSDK) tt mkDSGInput 1 =
    (Ok (mkDSGOutput demoGroups), 2) /\
  forallb carriesName demoGroups = true /\
  exists names,
    getSecurityGroupNames (sdk := demoSDK) demoWorld =
      (Returned names,
       mkWorld (sdk := demoSDK) 2 (stdout demoWorld)
         (calls demoWorld ++
          [CallLoadDefaultConfig; CallDescribeSecurityGroups mkDSGInput])) /\
    map Some names = map GroupName demoGroups.
Proof.
  refine (conj eq_refl (conj eq_refl (conj eq_refl _))).
  exact (getSecurityGroupNames_returns_names_in_order (sdk := demoSDK)
           demoWorld (out := mkDSGOutput demoGroups) eq_refl eq_refl eq_refl).
Defined.

(** X2 at the account whose listing has a group without name. *)
Lemma getSecurityGroupNames_abort_causes_witness :
  getSecurityGroupNames (sdk := namelessGroupSDK) (world0 namelessGroupSDK 0) =
    (Aborted (Panic PanicNilDereference),
     snd (getSecurityGroupNames (sdk := namelessGroupSDK)
            (world0 namelessGroupSDK 0))) /\
  stdout (snd (getSecurityGroupNames (sdk := namelessGroupSDK)
                 (world0 namelessGroupSDK 0))) =
    stdout (world0 namelessGroupSDK 0).
Proof.
  refine (conj eq_refl _).
  exact (proj1 (getSecurityGroupNames_abort_causes (sdk := namelessGroupSDK)
                  (world0 namelessGroupSDK 0) eq_refl)).
Defined.

(** X5 at the names [web], [odd], [db]: the first record of [odd] has no
    identifier. *)
Lemma main_stops_at_record_without_identifier_witness :
  lookupAll (sdk := demoSDK) ["web"] demoWorld =
    (Returned [[eniA; eniB]], snd (lookupAll (sdk := demoSDK) ["web"] demoWorld)) /\
  forallb (forallb carriesId) [[eniA; eniB]] = true /\
  getNetworkInterfacesForSecurityGroup (sdk := demoSDK) "odd"
      (snd (lookupAll (sdk := demoSDK) ["web"] demoWorld)) =
    (Returned ([] ++ eniNoId :: [eniA])%list,
     snd (getNetworkInterfacesForSecurityGroup (sdk := demoSDK) "odd"
            (snd (lookupAll (sdk := demoSDK) ["web"] demoWorld)))) /\
  forallb carriesId [] = true /\
  NetworkInterfaceId eniNoId = None /\
  main (sdk := demoSDK) (["web"] ++ "odd" :: ["db"]) demoWorld =
    (Aborted (Panic PanicNilDereference),
     withStdout
       (stdout demoWorld ++
        concatAll (map groupBlock (combine ["web"] [[eniA; eniB]])) ++
        headerLine "odd" ++
        concatAll (map interfaceBlock []) ++
        "Network interfaces:" ++ nl)
       (snd (getNetworkInterfacesForSecurityGroup (sdk := demoSDK) "odd"
               (snd (lookupAll (sdk := demoSDK) ["web"] demoWorld))))).
Proof.
  refine (conj eq_refl (conj eq_refl (conj eq_refl (conj eq_refl (conj eq_refl _))))).
  exact (proj1 (main_stops_at_record_without_identifier (sdk := demoSDK)
                  ["web"] "odd" ["db"] demoWorld [] eniNoId [eniA]
                  eq_refl eq_refl eq_refl eq_refl eq_refl)).
Defined.
